(** * starlette_jhalog: the package's [__init__] module

    The package's top-level module is a re-export table:

<<
    (docstring) Jhalog (JSON HTTP Access Log) middleware for Starlette/FastAPI.
    from starlette_jhalog._middleware import JhalogMiddleware, get_logger
    from starlette_jhalog._exceptions import HTTPException

    __all__ = ("JhalogMiddleware", "HTTPException", "get_logger")
>>

    Everything the module does, it does through the import system, so the
    development embeds the module body as a computation in a state and
    exception monad over the interpreter's module table ([sys.modules]),
    together with the part of the import machinery the body drives: the
    cache check, the load of a submodule, the binding of a loaded submodule
    on its parent, the import of a name that a package lacks as a submodule
    of it, [IMPORT_FROM] with its fallback on [sys.modules] and [STORE_NAME]
    for each imported name, and the removal of a module whose body raised.

    The two submodules [_middleware] and [_exceptions] are not part of the
    file.  They enter as a parameter, the finder, which tells for a module
    name whether the module is there and what running it gives: an exception
    or the namespace it leaves.  What else their code does (to other modules,
    or through a module-level [__getattr__]) is not represented, and a
    module's [__name__] is taken to be the name it is registered under; no
    statement below is about what the module table holds beside the modules
    the load registers, and the statements that rest on how a name is looked
    up in a submodule take the submodule to be [plain]: without a
    [__getattr__], and with the [__name__] it is registered under. *)

From Stdlib Require Import Ascii.
From stdpp Require Import base strings gmap list.

(** ** Objects, namespaces and exceptions *)

(** A namespace binds a name to a reference.  Classes, functions and every
    other object defined by code outside this file are opaque and known by
    their address [VObj a]: two bindings hold the same object exactly when
    they hold the same reference.  A module is referred to by the name it is
    registered under in [sys.modules]. *)
#[warnings="-register-all"]
Inductive value : Type :=
| VNone
| VStr (s : string)
| VTuple (vs : list value)
| VModule (name : string)
| VObj (addr : positive).

(** The exceptions of an import: no module of that name, no such name in
    the module imported from, and, for what the body of a submodule may
    raise on its own, an exception of a class outside the [ImportError]
    family, known by the name of its class. *)
Inductive exn : Type :=
| ModuleNotFoundError (name : string)
| ImportError (name from : string)
| OtherError (cls : string).


(** What the import system gets when it looks for a module and runs it: no
    such module, an exception out of its body, or the namespace its body
    leaves when it runs to the end. *)
Inductive outcome : Type :=
| Absent
| Raises (e : exn)
| Defines (ns : gmap string value).

(** ** Interpreter state *)

(** [sys_modules] is the module table, each module with its namespace; a
    module object is shared by all that refer to it, which here means by all
    that look it up under its name.  [imports] is a trace kept for the
    statements about the imports: it records, oldest first, the module named
    by each import statement the package body has executed. *)
Record state : Type := State {
  sys_modules : gmap string (gmap string value);
  imports : list string
}.

(** ** The monad of module-level code *)

Definition M (A : Type) : Type := state → (exn + A) * state.

#[global] Instance M_ret : MRet M := λ A a st, (inr a, st).

#[global] Instance M_bind : MBind M := λ A B k m st,
  match m st with
  | (inl e, st') => (inl e, st')
  | (inr a, st') => k a st'
  end.

(** An exception keeps the state it was raised in. *)
Definition raise {A : Type} (e : exn) : M A := λ st, (inl e, st).

Definition catch {A : Type} (m : M A) (h : exn → M A) : M A := λ st,
  match m st with
  | (inl e, st') => h e st'
  | r => r
  end.

Fixpoint for_each {A : Type} (f : A → M unit) (l : list A) : M unit :=
  match l with
  | [] => mret ()
  | x :: l' => f x;; for_each f l'
  end.

(** [sys.modules.get(name)], [sys.modules[name] = module] and
    [del sys.modules[name]]. *)
Definition get_module (name : string) : M (option (gmap string value)) :=
  λ st, (inr (sys_modules st !! name), st).

Definition set_module (name : string) (ns : gmap string value) : M unit :=
  λ st, (inr (), State (<[name := ns]> (sys_modules st)) (imports st)).

Definition del_module (name : string) : M unit :=
  λ st, (inr (), State (delete name (sys_modules st)) (imports st)).

(** [getattr], [hasattr] and [setattr] on the module registered as
    [modname]. *)
Definition getattr (modname attr : string) : M (option value) :=
  λ st, (inr (sys_modules st !! modname ≫= (.!! attr)), st).

Definition hasattr (modname attr : string) : M bool :=
  v ← getattr modname attr;
  mret (match v with Some _ => true | None => false end).

Definition setattr (modname attr : string) (v : value) : M unit :=
  λ st, (inr (), State (alter <[attr := v]> modname (sys_modules st)) (imports st)).

Definition log_import (name : string) : M unit :=
  λ st, (inr (), State (sys_modules st) (imports st ++ [name])).

(** ** Dotted names *)

Fixpoint has_dot (s : string) : bool :=
  match s with
  | EmptyString => false
  | String c s' => if Ascii.eqb c "."%char then true else has_dot s'
  end.

(** [str.rpartition(".")] without the separator: the text before the last
    dot and the text after it; the first is empty when there is no dot. *)
Fixpoint rpartition (s : string) : string * string :=
  match s with
  | EmptyString => (EmptyString, EmptyString)
  | String c s' =>
      if has_dot s' then let '(h, t) := rpartition s' in (String c h, t)
      else if Ascii.eqb c "."%char then (EmptyString, s')
      else (EmptyString, String c s')
  end.

(** The name of the submodule [name] of [modname]; a module's [__name__]
    is the name it is registered under. *)
Definition qualified (modname name : string) : string :=
  modname +:+ "." +:+ name.

(** ** The import machinery and the module body *)

Definition package : string := "starlette_jhalog".

(** The names of the tuple the last line assigns to [__all__]. *)
Definition __all__ : list string :=
  ["JhalogMiddleware"; "HTTPException"; "get_logger"].

Section ImportSystem.

(** What the finders and loaders give for a module name. *)
Variable finder : string → outcome.

(** The attributes the import system sets on the fresh package module
    before it runs the body ([__name__], [__package__], [__path__],
    [__spec__] and the like). *)
Variable module_attrs : gmap string value.

(** [importlib._bootstrap._find_and_load] for a submodule [parent.child]
    whose parent is in the module table, as the package is while its body
    runs, and is a package (it has a [__path__], which is not checked here).
    A cached module is returned as it is.  Otherwise the module is found,
    registered, and its body run; a module whose body raises is not left in
    the table.  A module that has just been loaded is bound on its parent
    under its last name; a cached one is not bound again. *)
Definition find_and_load (name : string) : M unit :=
  let '(parent, child) := rpartition name in
  cached ← get_module name;
  match cached with
  | Some _ => mret ()
  | None =>
      match finder name with
      | Absent => raise (ModuleNotFoundError name)
      | Raises e => raise e
      | Defines ns =>
          set_module name ns;;
          setattr parent child (VModule name)
      end
  end.

(** [STORE_NAME]: the body's globals are the package module's namespace. *)
Definition store_name (name : string) (v : value) : M unit :=
  setattr package name v.

(** One name of the from-list in [importlib._bootstrap._handle_fromlist]: a
    name the module lacks is imported as a submodule of it; that there is no
    such submodule is not an error at this point. *)
Definition import_missing (modname x : string) : M unit :=
  has ← hasattr modname x;
  if (has : bool) then mret ()
  else
    catch (find_and_load (qualified modname x))
      (λ e, match e with
            | ModuleNotFoundError n =>
                if String.eqb n (qualified modname x) then mret () else raise e
            | _ => raise e
            end).

(** [IMPORT_NAME modname] with a from-list: the module is imported; when it
    is a package, the names of the from-list it lacks are looked for as
    submodules of it. *)
Definition import_name (modname : string) (fromlist : list string) : M unit :=
  find_and_load modname;;
  is_package ← hasattr modname "__path__";
  if (is_package : bool) then for_each (import_missing modname) fromlist else mret ().

(** What [IMPORT_FROM name] gets from the module: its attribute, or else the
    module registered as its submodule of that name. *)
Definition lookup_from (modname name : string) : M (option value) :=
  v ← getattr modname name;
  match v with
  | Some v => mret (Some v)
  | None =>
      sub ← get_module (qualified modname name);
      mret (match sub with
            | Some _ => Some (VModule (qualified modname name))
            | None => None
            end)
  end.

(** [IMPORT_FROM name; STORE_NAME name]. *)
Definition import_from (modname name : string) : M unit :=
  v ← lookup_from modname name;
  match v with
  | Some v => store_name name v
  | None => raise (ImportError name modname)
  end.

(** [from modname import n1, n2, ...]: the module is imported first, then
    each name is fetched and bound in turn, so the names before a missing
    one are bound when the [ImportError] is raised. *)
Definition from_import (modname : string) (names : list string) : M unit :=
  log_import modname;;
  import_name modname names;;
  for_each (import_from modname) names.

(** The body of [starlette_jhalog/__init__.py]. *)
Definition __init__ : M unit :=
  store_name "__doc__"
    (VStr "Jhalog (JSON HTTP Access Log) middleware for Starlette/FastAPI.");;
  from_import "starlette_jhalog._middleware" ["JhalogMiddleware"; "get_logger"];;
  from_import "starlette_jhalog._exceptions" ["HTTPException"];;
  store_name "__all__" (VTuple (VStr <$> __all__)).

(** [import starlette_jhalog]: a cached package is not executed again; a
    package whose body raises is taken out of the module table and the
    exception goes to the importer. *)
Definition import_package : M unit :=
  cached ← get_module package;
  match cached with
  | Some _ => mret ()
  | None =>
      set_module package module_attrs;;
      catch __init__ (λ e, del_module package;; raise e)
  end.

End ImportSystem.

(** ** Names and states the statements speak about *)

Definition middleware : string := "starlette_jhalog._middleware".
Definition exceptions : string := "starlette_jhalog._exceptions".
Definition docstring : string :=
  "Jhalog (JSON HTTP Access Log) middleware for Starlette/FastAPI.".

(** The state while the package body runs: the package is registered with
    namespace [ns], [m] holds the other modules. *)
Definition running (ns : gmap string value) (m : gmap string (gmap string value))
    (l : list string) : state :=
  State (<[package := ns]> m) l.

(** What an import of [name] gets when the module table is [m]: the cached
    module, or else what the finder gives. *)
Definition resolve (finder : string → outcome) (m : gmap string (gmap string value))
    (name : string) : outcome :=
  match m !! name with
  | Some ns => Defines ns
  | None => finder name
  end.

(** The binding the import system adds to the parent namespace [ns] for the
    submodule [name]: none when the submodule was in the table [m] already. *)
Definition bind_child (m : gmap string (gmap string value)) (name child : string)
    (ns : gmap string value) : gmap string value :=
  match m !! name with
  | Some _ => ns
  | None => <[child := VModule name]> ns
  end.

(** What [IMPORT_FROM name] gets from [modname] when the module table is [m]:
    the attribute, or else the module registered as [modname.name]. *)
Definition fetch (m : gmap string (gmap string value)) (modname name : string) :
    option value :=
  match m !! modname ≫= (.!! name) with
  | Some v => Some v
  | None =>
      match m !! qualified modname name with
      | Some _ => Some (VModule (qualified modname name))
      | None => None
      end
  end.

(** What the import of one name that [modname] may lack does to the table of
    the modules other than the package. *)
Definition child_step (finder : string → outcome) (modname x : string)
    (m : gmap string (gmap string value)) :
    (exn + unit) * gmap string (gmap string value) :=
  match m !! modname ≫= (.!! x) with
  | Some _ => (inr (), m)
  | None =>
      match m !! qualified modname x with
      | Some _ => (inr (), m)
      | None =>
          match finder (qualified modname x) with
          | Absent => (inr (), m)
          | Raises e =>
              (match e with
               | ModuleNotFoundError n =>
                   if String.eqb n (qualified modname x) then inr () else inl e
               | _ => inl e
               end, m)
          | Defines nsc =>
              (inr (),
               alter <[x := VModule (qualified modname x)]> modname
                 (<[qualified modname x := nsc]> m))
          end
      end
  end.

Fixpoint children (finder : string → outcome) (modname : string) (names : list string)
    (m : gmap string (gmap string value)) :
    (exn + unit) * gmap string (gmap string value) :=
  match names with
  | [] => (inr (), m)
  | x :: names' =>
      match child_step finder modname x m with
      | (inl e, m') => (inl e, m')
      | (inr _, m') => children finder modname names' m'
      end
  end.

(** What [IMPORT_NAME modname] with the from-list [names] does to the table
    of the modules other than the package. *)
Definition import_table (finder : string → outcome) (modname : string)
    (names : list string) (m : gmap string (gmap string value)) :
    (exn + unit) * gmap string (gmap string value) :=
  match resolve finder m modname with
  | Absent => (inl (ModuleNotFoundError modname), m)
  | Raises e => (inl e, m)
  | Defines nsx =>
      match nsx !! "__path__" with
      | Some _ => children finder modname names (<[modname := nsx]> m)
      | None => (inr (), <[modname := nsx]> m)
      end
  end.

(** The package namespace after [IMPORT_NAME modname]: the submodule is bound
    on the package when the import system has just loaded it. *)
Definition after_import (finder : string → outcome) (m : gmap string (gmap string value))
    (modname child : string) (ns : gmap string value) : gmap string value :=
  match resolve finder m modname with
  | Defines _ => bind_child m modname child ns
  | Absent | Raises _ => ns
  end.

(** A module as the lookups above take it: it has no module-level
    [__getattr__], and its [__name__], where the namespace records one, is
    the name it is registered under. *)
Definition plain (name : string) (ns : gmap string value) : Prop :=
  ns !! "__getattr__" = None ∧
  (ns !! "__name__" = None ∨ ns !! "__name__" = Some (VStr name)).



(** Each of the two submodules the import system gets is [plain]. *)
Definition plain_submodules (finder : string → outcome)
    (m : gmap string (gmap string value)) : Prop :=
  ∀ modname nsx, modname ∈ [middleware; exceptions] →
    resolve finder m modname = Defines nsx → plain modname nsx.

(** The names the body imports, each with the module it is imported
    from. *)
Definition reexports : list (string * string) :=
  [(middleware, "JhalogMiddleware"); (middleware, "get_logger");
   (exceptions, "HTTPException")].

(** The module names a load of the package may ask the finder for: the two
    submodules and, for each imported name, the submodule of that name. *)
Definition consulted : list string :=
  [middleware; qualified middleware "JhalogMiddleware"; qualified middleware "get_logger";
   exceptions; qualified exceptions "HTTPException"].

(** Two finders give the same for each of [names]. *)
Definition agree_on (names : list string) (finder finder' : string → outcome) : Prop :=
  ∀ name, name ∈ names → finder' name = finder name.


(** The names the statements of the body store, in the order they do. *)
Definition body_names : list string :=
  ["__doc__"; "JhalogMiddleware"; "get_logger"; "HTTPException"; "__all__"].

(** The names the import system binds on the package for the submodules a
    load brings in, starting from the module table [m]. *)
Definition submodule_names (m : gmap string (gmap string value)) : list string :=
  match m !! middleware with Some _ => [] | None => ["_middleware"] end ++
  match m !! exceptions with Some _ => [] | None => ["_exceptions"] end.

(** The package namespace once the body has run to its end, from the module
    table and the attributes it started with and the three imported
    objects. *)
Definition loaded_namespace (m : gmap string (gmap string value))
    (attrs : gmap string value) (j g h : value) : gmap string value :=
  <["__all__" := VTuple (VStr <$> __all__)]>
    (<["HTTPException" := h]>
      (bind_child m exceptions "_exceptions"
        (<["get_logger" := g]>
          (<["JhalogMiddleware" := j]>
            (bind_child m middleware "_middleware"
              (<["__doc__" := VStr docstring]> attrs)))))).

(** ** Sample environments *)

Definition middleware_ns : gmap string value :=
  <["get_logger" := VObj 2]> (<["JhalogMiddleware" := VObj 1]> ∅).

Definition exceptions_ns : gmap string value :=
  <["HTTPException" := VObj 3]> ∅.

(** Both submodules are there and define what the package imports. *)
Definition finder_ok (name : string) : outcome :=
  if String.eqb name middleware then Defines middleware_ns
  else if String.eqb name exceptions then Defines exceptions_ns
  else Absent.

(** [_middleware.py] does not compile. *)
Definition finder_syntax_error (name : string) : outcome :=
  if String.eqb name middleware then Raises (OtherError "SyntaxError")
  else finder_ok name.

(** [_middleware.py] defines [JhalogMiddleware] but no [get_logger]. *)
Definition finder_no_get_logger (name : string) : outcome :=
  if String.eqb name middleware then Defines (<["JhalogMiddleware" := VObj 1]> ∅)
  else finder_ok name.

(** [_exceptions.py] is missing. *)
Definition finder_no_exceptions (name : string) : outcome :=
  if String.eqb name middleware then Defines middleware_ns else Absent.

(** [_middleware] is a package that has [JhalogMiddleware] but no
    [get_logger]; [get_logger] is a submodule of it. *)
Definition package_ns : gmap string value :=
  <["__path__" := VObj 11]> (<["JhalogMiddleware" := VObj 1]> ∅).

Definition get_logger_ns : gmap string value :=
  <["logger" := VObj 4]> ∅.

Definition finder_package (name : string) : outcome :=
  if String.eqb name middleware then Defines package_ns
  else if String.eqb name (qualified middleware "get_logger") then Defines get_logger_ns
  else finder_ok name.

(** The same, without the submodule [get_logger]. *)
Definition finder_package_bare (name : string) : outcome :=
  if String.eqb name (qualified middleware "get_logger") then Absent
  else finder_package name.

(** The attributes of the package module when its body starts. *)
Definition fresh_attrs : gmap string value :=
  <["__name__" := VStr package]>
    (<["__package__" := VStr package]>
      (<["__path__" := VObj 10]>
        (<["__file__" := VStr "starlette_jhalog/__init__.py"]>
          (<["__doc__" := VNone]> ∅)))).

(** An interpreter that has imported nothing yet. *)
Definition st0 : state := State ∅ [].

(** An interpreter whose module table holds a module registered as the
    submodule [get_logger] of [_middleware], and nothing else. *)
Definition st_fallback : state :=
  State (<[qualified middleware "get_logger" := get_logger_ns]> ∅) [].

(** The state an import of the package reaches from [st0]. *)
Definition st1 : state := (import_package finder_ok fresh_attrs st0).2.

(** The state a failed import leaves: from [st0], with [_exceptions.py]
    missing, the load fails after [_middleware] has been loaded. *)
Definition st_retry : state := (import_package finder_no_exceptions fresh_attrs st0).2.

(** * Proofs *)

(** ** Dotted names *)

Lemma has_dot_app s x : has_dot (s +:+ "." +:+ x) = true.
Proof.
  induction s as [|c s IH]; simpl; [done|].
  by destruct (Ascii.eqb c ".").
Qed.

Lemma rpartition_qualified sub x :
  has_dot x = false → rpartition (qualified sub x) = (sub, x).
Proof.
  intros Hx. unfold qualified. induction sub as [|c s IH].
  - change (rpartition (String "." x) = (EmptyString, x)).
    unfold rpartition; fold rpartition. by rewrite Hx.
  - change (rpartition (String c (s +:+ "." +:+ x)) = (String c s, x)).
    unfold rpartition; fold rpartition. by rewrite has_dot_app, IH.
Qed.

Lemma rpartition_middleware : rpartition middleware = (package, "_middleware").
Proof. reflexivity. Qed.

Lemma rpartition_exceptions : rpartition exceptions = (package, "_exceptions").
Proof. reflexivity. Qed.

Lemma qualified_ne_package sub x :
  rpartition sub = (package, x) → ∀ y, has_dot y = false → qualified sub y ≠ package.
Proof.
  intros Hs y Hy Heq. pose proof (rpartition_qualified sub y Hy) as Hr.
  rewrite Heq in Hr. vm_compute in Hr. simplify_eq.
Qed.

Lemma qualified_ne sub x : qualified sub x ≠ sub.
Proof.
  unfold qualified. induction sub as [|c s IH]; [done|].
  intros Heq. apply IH. by injection Heq.
Qed.

Lemma qualified_inj sub x y : qualified sub x = qualified sub y → x = y.
Proof.
  unfold qualified. induction sub as [|c s IH]; intros Heq.
  - by injection Heq.
  - apply IH. by injection Heq.
Qed.

(** ** One step at a time *)

Lemma bind_run {A B : Type} (c : M A) (k : A → M B) (st : state) :
  (c ≫= k) st =
    match c st with
    | (inl e, st') => (inl e, st')
    | (inr a, st') => k a st'
    end.
Proof. reflexivity. Qed.

Lemma running_package ns m l : sys_modules (running ns m l) !! package = Some ns.
Proof. apply lookup_insert_eq. Qed.

Lemma running_other ns m l name :
  name ≠ package → sys_modules (running ns m l) !! name = m !! name.
Proof. intros Hne. unfold running; simpl. by rewrite lookup_insert_ne. Qed.

Lemma store_name_run ns m l name v :
  store_name name v (running ns m l) = (inr (), running (<[name := v]> ns) m l).
Proof.
  unfold store_name, setattr, running; simpl. do 2 f_equal.
  apply map_eq; intros k. destruct (decide (k = package)) as [->|Hk].
  - by rewrite lookup_alter_eq, !lookup_insert_eq.
  - by rewrite lookup_alter_ne, !lookup_insert_ne.
Qed.

Lemma log_import_run ns m l name :
  log_import name (running ns m l) = (inr (), running ns m (l ++ [name])).
Proof. reflexivity. Qed.

Lemma getattr_run ns m l modname attr :
  modname ≠ package →
  getattr modname attr (running ns m l) = (inr (m !! modname ≫= (.!! attr)), running ns m l).
Proof. intros Hne. unfold getattr. by rewrite running_other. Qed.

Lemma hasattr_run ns m l modname attr :
  modname ≠ package →
  hasattr modname attr (running ns m l) =
    (inr (match m !! modname ≫= (.!! attr) with Some _ => true | None => false end),
     running ns m l).
Proof. intros Hne. unfold hasattr. by rewrite bind_run, getattr_run. Qed.

Lemma get_module_run ns m l name :
  name ≠ package → get_module name (running ns m l) = (inr (m !! name), running ns m l).
Proof. intros Hne. unfold get_module. by rewrite running_other. Qed.

Lemma lookup_from_run ns m l modname name :
  modname ≠ package → qualified modname name ≠ package →
  lookup_from modname name (running ns m l) = (inr (fetch m modname name), running ns m l).
Proof.
  intros Hne Hq. unfold lookup_from, fetch. rewrite bind_run, getattr_run by done.
  destruct (m !! modname ≫= (.!! name)); [done|].
  rewrite bind_run, get_module_run by done. by destruct (m !! qualified modname name).
Qed.

Lemma import_from_run ns m l modname name :
  modname ≠ package → qualified modname name ≠ package →
  import_from modname name (running ns m l) =
    match fetch m modname name with
    | Some v => (inr (), running (<[name := v]> ns) m l)
    | None => (inl (ImportError name modname), running ns m l)
    end.
Proof.
  intros Hne Hq. unfold import_from. rewrite bind_run, lookup_from_run by done.
  destruct (fetch m modname name); [apply store_name_run | done].
Qed.

(** The import of a submodule of the package. *)
Lemma find_and_load_run finder ns m l name child :
  rpartition name = (package, child) → name ≠ package →
  find_and_load finder name (running ns m l) =
    match resolve finder m name with
    | Absent => (inl (ModuleNotFoundError name), running ns m l)
    | Raises e => (inl e, running ns m l)
    | Defines nsx =>
        (inr (), running (bind_child m name child ns) (<[name := nsx]> m) l)
    end.
Proof.
  intros Hr Hne. unfold find_and_load, resolve, bind_child. rewrite Hr, bind_run.
  rewrite get_module_run by done.
  destruct (m !! name) as [nsx|] eqn:Hn.
  { simpl. by rewrite insert_id. }
  destruct (finder name) as [|e|nsx]; [done..|].
  rewrite bind_run. unfold set_module, setattr, running; simpl. do 2 f_equal.
  apply map_eq; intros k. destruct (decide (k = package)) as [->|Hk].
  - by rewrite lookup_alter_eq, lookup_insert_eq, lookup_insert_ne, lookup_insert_eq.
  - rewrite lookup_alter_ne, (lookup_insert_ne _ package) by done.
    destruct (decide (k = name)) as [->|Hk'].
    + by rewrite !lookup_insert_eq.
    + by rewrite !lookup_insert_ne.
Qed.

(** The import of a submodule of a submodule of the package. *)
Lemma find_and_load_child_run finder ns m l modname x :
  has_dot x = false → modname ≠ package → qualified modname x ≠ package →
  find_and_load finder (qualified modname x) (running ns m l) =
    match m !! qualified modname x with
    | Some _ => (inr (), running ns m l)
    | None =>
        match finder (qualified modname x) with
        | Absent => (inl (ModuleNotFoundError (qualified modname x)), running ns m l)
        | Raises e => (inl e, running ns m l)
        | Defines nsc =>
            (inr (),
             running ns
               (alter <[x := VModule (qualified modname x)]> modname
                  (<[qualified modname x := nsc]> m)) l)
        end
    end.
Proof.
  intros Hx Hne Hq. unfold find_and_load.
  rewrite rpartition_qualified, bind_run, get_module_run by done.
  destruct (m !! qualified modname x) as [nsc|]; [done|].
  destruct (finder (qualified modname x)) as [|e|nsc]; [done..|].
  rewrite bind_run. unfold set_module, setattr, running; simpl. do 2 f_equal.
  apply map_eq; intros k. destruct (decide (k = package)) as [->|Hk].
  - rewrite lookup_alter_ne, lookup_insert_ne, !lookup_insert_eq by done. done.
  - rewrite (lookup_insert_ne _ package) by done.
    destruct (decide (k = modname)) as [->|Hk'].
    + rewrite !lookup_alter_eq. f_equal.
      destruct (decide (modname = qualified modname x)) as [Heq|Hne'].
      * by destruct (qualified_ne modname x).
      * by rewrite !(lookup_insert_ne _ (qualified modname x)), lookup_insert_ne by done.
    + rewrite !lookup_alter_ne by done.
      destruct (decide (k = qualified modname x)) as [->|Hk''].
      * by rewrite !lookup_insert_eq.
      * by rewrite !(lookup_insert_ne _ (qualified modname x)), lookup_insert_ne by done.
Qed.

Lemma import_missing_run finder ns m l modname x :
  has_dot x = false → modname ≠ package → qualified modname x ≠ package →
  import_missing finder modname x (running ns m l) =
    ((child_step finder modname x m).1, running ns (child_step finder modname x m).2 l).
Proof.
  intros Hx Hne Hq. unfold import_missing, child_step.
  rewrite bind_run, hasattr_run by done.
  destruct (m !! modname ≫= (.!! x)); [done|].
  unfold catch. rewrite find_and_load_child_run by done.
  destruct (m !! qualified modname x); [done|].
  destruct (finder (qualified modname x)) as [|e|nsc]; simpl.
  - by rewrite String.eqb_refl.
  - destruct e as [n| |]; try done.
    by destruct (String.eqb n (qualified modname x)).
  - done.
Qed.

Lemma children_run finder modname names :
  modname ≠ package →
  (∀ x, x ∈ names → has_dot x = false ∧ qualified modname x ≠ package) →
  ∀ ns m l,
  for_each (import_missing finder modname) names (running ns m l) =
    ((children finder modname names m).1,
     running ns (children finder modname names m).2 l).
Proof.
  intros Hne. induction names as [|x names IH]; intros Hnames ns m l; [done|].
  destruct (Hnames x) as [Hx Hq]; [by left|].
  simpl. rewrite bind_run, import_missing_run by done.
  destruct (child_step finder modname x m) as [[e|u] m']; simpl; [done|].
  apply IH. intros y Hy. apply Hnames. by right.
Qed.

Lemma import_name_run finder ns m l modname child names :
  rpartition modname = (package, child) → modname ≠ package →
  (∀ x, x ∈ names → has_dot x = false ∧ qualified modname x ≠ package) →
  import_name finder modname names (running ns m l) =
    ((import_table finder modname names m).1,
     running (after_import finder m modname child ns)
       (import_table finder modname names m).2 l).
Proof.
  intros Hr Hne Hnames. unfold import_name, import_table, after_import.
  rewrite bind_run. erewrite find_and_load_run by done.
  destruct (resolve finder m modname) as [|e|nsx]; [done..|].
  rewrite bind_run, hasattr_run by done. rewrite lookup_insert_eq; simpl.
  destruct (nsx !! "__path__"); [|done].
  by apply children_run.
Qed.

Lemma from_import_run finder ns m l modname child names :
  rpartition modname = (package, child) → modname ≠ package →
  (∀ x, x ∈ names → has_dot x = false ∧ qualified modname x ≠ package) →
  from_import finder modname names (running ns m l) =
    match import_table finder modname names m with
    | (inl e, m') =>
        (inl e, running (after_import finder m modname child ns) m' (l ++ [modname]))
    | (inr _, m') =>
        for_each (import_from modname) names
          (running (after_import finder m modname child ns) m' (l ++ [modname]))
    end.
Proof.
  intros Hr Hne Hnames. unfold from_import.
  rewrite bind_run, log_import_run, bind_run.
  erewrite import_name_run by done.
  by destruct (import_table finder modname names m) as [[e|u] m'].
Qed.

(** ** The import of a submodule, on the module table *)

Lemma child_step_frame finder modname x m name :
  name ≠ modname → name ≠ qualified modname x →
  (child_step finder modname x m).2 !! name = m !! name.
Proof.
  intros Hm Hq. unfold child_step.
  destruct (m !! modname ≫= (.!! x)); [done|].
  destruct (m !! qualified modname x); [done|].
  destruct (finder (qualified modname x)) as [|e|nsc]; [done..|]. simpl.
  by rewrite lookup_alter_ne, lookup_insert_ne.
Qed.

Lemma child_step_registered finder modname x m :
  is_Some (m !! modname) → is_Some ((child_step finder modname x m).2 !! modname).
Proof.
  intros Hm. unfold child_step.
  destruct (m !! modname ≫= (.!! x)); [done|].
  destruct (m !! qualified modname x); [done|].
  destruct (finder (qualified modname x)) as [|e|nsc]; [done..|]. simpl.
  rewrite lookup_alter_eq, lookup_insert_ne by apply qualified_ne.
  destruct Hm as [ns ->]. by eexists.
Qed.



Lemma children_frame finder modname names name :
  name ≠ modname → (∀ y, y ∈ names → name ≠ qualified modname y) →
  ∀ m, (children finder modname names m).2 !! name = m !! name.
Proof.
  intros Hm. induction names as [|x names IH]; intros Hnames m; [done|].
  simpl. pose proof (child_step_frame finder modname x m name Hm) as Hstep.
  destruct (child_step finder modname x m) as [[e|u] m']; simpl in *.
  - apply Hstep, Hnames. by left.
  - rewrite IH by (intros y Hy; apply Hnames; by right).
    apply Hstep, Hnames. by left.
Qed.

Lemma children_registered finder modname names :
  ∀ m, is_Some (m !! modname) →
       is_Some ((children finder modname names m).2 !! modname).
Proof.
  induction names as [|x names IH]; intros m Hm; [done|].
  simpl. pose proof (child_step_registered finder modname x m Hm) as Hstep.
  destruct (child_step finder modname x m) as [[e|u] m']; simpl in *; [done|].
  by apply IH.
Qed.




Lemma resolve_insert_ne finder m name name' ns :
  name ≠ name' → resolve finder (<[name := ns]> m) name' = resolve finder m name'.
Proof. intros Hne. unfold resolve. by rewrite lookup_insert_ne. Qed.

Lemma import_table_frame finder modname names m name :
  name ≠ modname → (∀ y, y ∈ names → name ≠ qualified modname y) →
  (import_table finder modname names m).2 !! name = m !! name.
Proof.
  intros Hm Hnames. unfold import_table.
  destruct (resolve finder m modname) as [|e|nsx]; [done..|].
  destruct (nsx !! "__path__"); simpl.
  - by rewrite children_frame, lookup_insert_ne.
  - by rewrite lookup_insert_ne.
Qed.

Lemma import_table_success finder modname names m :
  (∃ u, (import_table finder modname names m).1 = inr u) →
  (∃ nsx, resolve finder m modname = Defines nsx) ∧
  is_Some ((import_table finder modname names m).2 !! modname).
Proof.
  unfold import_table. intros [u Hu].
  destruct (resolve finder m modname) as [|e|nsx]; [done..|].
  split; [eauto|].
  destruct (nsx !! "__path__"); simpl.
  - apply children_registered. rewrite lookup_insert_eq. eauto.
  - rewrite lookup_insert_eq. eauto.
Qed.



(** ** The body, case by case *)

Lemma middleware_names x :
  x ∈ ["JhalogMiddleware"; "get_logger"] →
  has_dot x = false ∧ qualified middleware x ≠ package.
Proof. rewrite !elem_of_cons, elem_of_nil. by intros [->|[->|[]]]. Qed.

Lemma exceptions_names x :
  x ∈ ["HTTPException"] → has_dot x = false ∧ qualified exceptions x ≠ package.
Proof. rewrite !elem_of_cons, elem_of_nil. by intros [->|[]]. Qed.

(** The run of the body from a state where the package is registered,
    following what the two imports do to the module table and what each
    [IMPORT_FROM] gets. *)
Lemma init_cases finder ns0 m l :
  __init__ finder (running ns0 m l) =
    let ns1 := <["__doc__" := VStr docstring]> ns0 in
    let ns2 := after_import finder m middleware "_middleware" ns1 in
    match import_table finder middleware ["JhalogMiddleware"; "get_logger"] m with
    | (inl e, m1) => (inl e, running ns2 m1 (l ++ [middleware]))
    | (inr _, m1) =>
      match fetch m1 middleware "JhalogMiddleware" with
      | None =>
          (inl (ImportError "JhalogMiddleware" middleware),
           running ns2 m1 (l ++ [middleware]))
      | Some j =>
        match fetch m1 middleware "get_logger" with
        | None =>
            (inl (ImportError "get_logger" middleware),
             running (<["JhalogMiddleware" := j]> ns2) m1 (l ++ [middleware]))
        | Some g =>
          let ns4 := <["get_logger" := g]> (<["JhalogMiddleware" := j]> ns2) in
          let ns5 := after_import finder m1 exceptions "_exceptions" ns4 in
          let l2 := l ++ [middleware; exceptions] in
          match import_table finder exceptions ["HTTPException"] m1 with
          | (inl e, m2) => (inl e, running ns5 m2 l2)
          | (inr _, m2) =>
            match fetch m2 exceptions "HTTPException" with
            | None =>
                (inl (ImportError "HTTPException" exceptions), running ns5 m2 l2)
            | Some h =>
                (inr (),
                 running (<["__all__" := VTuple (VStr <$> __all__)]>
                            (<["HTTPException" := h]> ns5)) m2 l2)
            end
          end
        end
      end
    end.
Proof.
  unfold __init__. rewrite bind_run, store_name_run, bind_run.
  fold middleware exceptions docstring.
  erewrite (from_import_run _ _ _ _ middleware);
    [|apply rpartition_middleware|done|apply middleware_names].
  cbv zeta.
  destruct (import_table finder middleware _ m) as [[e|u] m1]; [done|].
  simpl for_each. rewrite bind_run, import_from_run by done.
  destruct (fetch m1 middleware "JhalogMiddleware") as [j|]; [|done].
  rewrite bind_run, import_from_run by done.
  destruct (fetch m1 middleware "get_logger") as [g|]; [|done].
  simpl. rewrite bind_run.
  erewrite (from_import_run _ _ _ _ exceptions);
    [|apply rpartition_exceptions|done|apply exceptions_names].
  rewrite <- app_assoc. simpl app.
  destruct (import_table finder exceptions _ m1) as [[e|u'] m2]; [done|].
  simpl for_each. rewrite bind_run, import_from_run by done.
  destruct (fetch m2 exceptions "HTTPException") as [h|]; [|done].
  apply store_name_run.
Qed.

(** ** The import of the package *)

Lemma import_package_run finder attrs st :
  sys_modules st !! package = None →
  import_package finder attrs st =
    match __init__ finder (running attrs (sys_modules st) (imports st)) with
    | (inl e, st') => (inl e, State (delete package (sys_modules st')) (imports st'))
    | (inr u, st') => (inr u, st')
    end.
Proof.
  intros Hp. unfold import_package. rewrite bind_run.
  unfold get_module; simpl. rewrite Hp, bind_run.
  unfold set_module, catch; simpl. fold (running attrs (sys_modules st) (imports st)).
  by destruct (__init__ finder _) as [[e|u] st'].
Qed.

Lemma import_package_cached finder attrs st :
  is_Some (sys_modules st !! package) → import_package finder attrs st = (inr (), st).
Proof.
  intros [ns Hp]. unfold import_package. rewrite bind_run.
  unfold get_module; simpl. by rewrite Hp.
Qed.


(** A load that succeeds: what the two imports made of the module table,
    what each [IMPORT_FROM] got, and the state reached. *)
Lemma import_success finder attrs st st' :
  sys_modules st !! package = None →
  import_package finder attrs st = (inr (), st') →
  ∃ m1 m2 j g h,
    import_table finder middleware ["JhalogMiddleware"; "get_logger"] (sys_modules st) =
      (inr (), m1) ∧
    fetch m1 middleware "JhalogMiddleware" = Some j ∧
    fetch m1 middleware "get_logger" = Some g ∧
    import_table finder exceptions ["HTTPException"] m1 = (inr (), m2) ∧
    fetch m2 exceptions "HTTPException" = Some h ∧
    st' = running (loaded_namespace (sys_modules st) attrs j g h) m2
            (imports st ++ [middleware; exceptions]).
Proof.
  intros Hp Hrun.
  rewrite import_package_run, init_cases in Hrun by done. cbv zeta in Hrun.
  destruct (import_table finder middleware _ (sys_modules st)) as [[e|[]] m1] eqn:Hm;
    [done|].
  destruct (fetch m1 middleware "JhalogMiddleware") as [j|] eqn:Hj; [|done].
  destruct (fetch m1 middleware "get_logger") as [g|] eqn:Hg; [|done].
  destruct (import_table finder exceptions _ m1) as [[e|[]] m2] eqn:He; [done|].
  destruct (fetch m2 exceptions "HTTPException") as [h|] eqn:Hh; [|done].
  exists m1, m2, j, g, h. split_and!; try done.
  simplify_eq. f_equal. unfold loaded_namespace, after_import.
  destruct (import_table_success finder middleware ["JhalogMiddleware"; "get_logger"]
              (sys_modules st)) as [[nsm ->] _]; [rewrite Hm; eauto|].
  destruct (import_table_success finder exceptions ["HTTPException"] m1)
    as [[nse ->] _]; [rewrite He; eauto|].
  do 2 f_equal. unfold bind_child.
  pose proof (import_table_frame finder middleware ["JhalogMiddleware"; "get_logger"]
                (sys_modules st) exceptions) as Hf.
  rewrite Hm in Hf. simpl in Hf. rewrite Hf; [done..|].
  intros y. rewrite !elem_of_cons, elem_of_nil. by intros [->|[->|[]]].
Qed.

(** ** Sample runs *)

Example load_ok : (import_package finder_ok fresh_attrs st0).1 = inr ().
Proof. vm_compute. reflexivity. Qed.

Example load_ok_names :
  dom <$> sys_modules st1 !! package =
    Some (list_to_set ["__name__"; "__package__"; "__path__"; "__file__"; "__doc__";
                       "_middleware"; "JhalogMiddleware"; "get_logger";
                       "_exceptions"; "HTTPException"; "__all__"]).
Proof. vm_compute. reflexivity. Qed.

Example load_ok_table :
  dom (sys_modules st1) = list_to_set [package; middleware; exceptions].
Proof. vm_compute. reflexivity. Qed.

Example load_syntax_error :
  (import_package finder_syntax_error fresh_attrs st0).1 = inl (OtherError "SyntaxError").
Proof. vm_compute. reflexivity. Qed.

Example load_no_get_logger :
  (import_package finder_no_get_logger fresh_attrs st0).1 =
    inl (ImportError "get_logger" middleware).
Proof. vm_compute. reflexivity. Qed.

Example load_no_exceptions :
  import_package finder_no_exceptions fresh_attrs st0 =
    (inl (ModuleNotFoundError exceptions),
     State (<[middleware := middleware_ns]> ∅) [middleware; exceptions]).
Proof. vm_compute. reflexivity. Qed.

Example load_retry_names :
  dom <$> sys_modules (import_package finder_ok fresh_attrs st_retry).2 !! package =
    Some (list_to_set ["__name__"; "__package__"; "__path__"; "__file__"; "__doc__";
                       "JhalogMiddleware"; "get_logger";
                       "_exceptions"; "HTTPException"; "__all__"]).
Proof. vm_compute. reflexivity. Qed.

Lemma import_success_namespace finder attrs st st' :
  sys_modules st !! package = None →
  import_package finder attrs st = (inr (), st') →
  ∃ j g h,
    sys_modules st' !! package = Some (loaded_namespace (sys_modules st) attrs j g h).
Proof.
  intros Hst Hrun.
  destruct (import_success _ _ _ _ Hst Hrun)
    as (m1 & m2 & j & g & h & _ & _ & _ & _ & _ & ->).
  exists j, g, h. apply running_package.
Qed.

(** ** The namespace of the loaded package *)

Lemma loaded_namespace_lookup m attrs j g h :
  loaded_namespace m attrs j g h !! "JhalogMiddleware" = Some j ∧
  loaded_namespace m attrs j g h !! "get_logger" = Some g ∧
  loaded_namespace m attrs j g h !! "HTTPException" = Some h ∧
  loaded_namespace m attrs j g h !! "__doc__" = Some (VStr docstring) ∧
  loaded_namespace m attrs j g h !! "__all__" = Some (VTuple (VStr <$> __all__)).
Proof.
  unfold loaded_namespace, bind_child.
  destruct (m !! middleware), (m !! exceptions); repeat split; by simplify_map_eq.
Qed.

Lemma loaded_namespace_middleware m attrs j g h :
  m !! middleware = None →
  loaded_namespace m attrs j g h !! "_middleware" = Some (VModule middleware).
Proof.
  intros Hm. unfold loaded_namespace, bind_child. rewrite Hm.
  destruct (m !! exceptions); by simplify_map_eq.
Qed.

Lemma loaded_namespace_exceptions m attrs j g h :
  m !! exceptions = None →
  loaded_namespace m attrs j g h !! "_exceptions" = Some (VModule exceptions).
Proof.
  intros He. unfold loaded_namespace, bind_child. rewrite He.
  destruct (m !! middleware); by simplify_map_eq.
Qed.

Lemma loaded_namespace_frame m attrs j g h n :
  n ∉ body_names ++ submodule_names m →
  loaded_namespace m attrs j g h !! n = attrs !! n.
Proof.
  unfold body_names, submodule_names, loaded_namespace, bind_child.
  destruct (m !! middleware), (m !! exceptions); simpl;
    rewrite !not_elem_of_cons; intros Hn; destruct_and!;
    by rewrite !lookup_insert_ne.
Qed.

Lemma loaded_namespace_dom m attrs j g h :
  dom (loaded_namespace m attrs j g h) =
    dom attrs ∪ list_to_set (body_names ++ submodule_names m).
Proof.
  unfold body_names, submodule_names, loaded_namespace, bind_child.
  destruct (m !! middleware), (m !! exceptions); simpl;
    rewrite !dom_insert_L; apply set_eq; intros n; set_unfold; tauto.
Qed.

Lemma loaded_namespace_exports m attrs j g h n :
  n ∈ __all__ → is_Some (loaded_namespace m attrs j g h !! n).
Proof.
  destruct (loaded_namespace_lookup m attrs j g h) as (Hj & Hg & Hh & _).
  unfold __all__. rewrite !elem_of_cons, elem_of_nil.
  intros [->|[->|[->|[]]]]; eauto.
Qed.

Lemma not_exported n : n ∈ ["__doc__"; "_middleware"; "_exceptions"; "__all__"] → n ∉ __all__.
Proof. unfold __all__. set_unfold. intuition (subst; discriminate). Qed.

Lemma middleware_attr_not_exported : "_middleware" ∉ __all__.
Proof. apply not_exported. set_unfold. tauto. Qed.


(** ** The export list *)

(** C1: the declared export list [__all__] is exactly the set of the three
    names JhalogMiddleware, HTTPException and get_logger: a name is in the
    list if and only if it is one of the three. *)
Theorem export_list_exact :
  (∀ n, n ∈ __all__ ↔ n = "JhalogMiddleware" ∨ n = "HTTPException" ∨ n = "get_logger") ∧
  list_to_set __all__ = ({[ "JhalogMiddleware"; "HTTPException"; "get_logger" ]} : gset string).
Proof.
  split.
  - intros n. unfold __all__. rewrite !elem_of_cons, elem_of_nil. tauto.
  - unfold __all__. apply set_eq; intros n. set_unfold. tauto.
Qed.

(** C10: after a successful load every name listed in [__all__] is bound in
    the package namespace, and [__all__] lists no name twice. *)
Theorem exports_are_bound finder attrs st st' :
  sys_modules st !! package = None →
  import_package finder attrs st = (inr (), st') →
  NoDup __all__ ∧
  ∃ ns, sys_modules st' !! package = Some ns ∧ ∀ n, n ∈ __all__ → is_Some (ns !! n).
Proof.
  intros Hst Hrun. split.
  - unfold __all__. repeat (apply NoDup_cons; split; [set_unfold; intuition discriminate|]).
    apply NoDup_nil_2.
  - destruct (import_success_namespace _ _ _ _ Hst Hrun) as (j & g & h & Hns).
    eexists. split; [exact Hns|]. apply loaded_namespace_exports.
Qed.

Lemma exports_are_bound_witness :
  sys_modules st0 !! package = None ∧
  import_package finder_ok fresh_attrs st0 = (inr (), st1) ∧
  NoDup __all__ ∧
  ∃ ns, sys_modules st1 !! package = Some ns ∧ ∀ n, n ∈ __all__ → is_Some (ns !! n).
Proof.
  assert (H0 : sys_modules st0 !! package = None) by reflexivity.
  assert (H1 : import_package finder_ok fresh_attrs st0 = (inr (), st1))
    by (vm_compute; reflexivity).
  exact (conj H0 (conj H1 (exports_are_bound finder_ok fresh_attrs st0 st1 H0 H1))).
Defined.

(** ** Which names the loaded namespace holds *)




(** C2, as stated, fails: from an interpreter that has imported nothing, with
    both submodules in place, the load succeeds and the namespace holds
    [_middleware], which is neither in the export list, nor the name of the
    export list, nor an attribute the module started with. *)
Lemma namespace_not_just_exports :
  ¬ (∀ st' ns,
       sys_modules st0 !! package = None →
       import_package finder_ok fresh_attrs st0 = (inr (), st') →
       sys_modules st' !! package = Some ns →
       ∀ n, n ∈ dom ns → n ∈ __all__ ∨ n = "__all__" ∨ n ∈ dom fresh_attrs).
Proof.
  intros Hclaim.
  assert (H0 : sys_modules st0 !! package = None) by reflexivity.
  assert (H1 : import_package finder_ok fresh_attrs st0 = (inr (), st1))
    by (vm_compute; reflexivity).
  destruct (import_success_namespace _ _ _ _ H0 H1) as (j & g & h & Hns).
  destruct (Hclaim st1 _ H0 H1 Hns "_middleware") as [Hin|[Hin|Hin]].
  - apply elem_of_dom. rewrite loaded_namespace_middleware; [eauto | reflexivity].
  - exact (middleware_attr_not_exported Hin).
  - discriminate Hin.
  - apply elem_of_dom in Hin as [v Hv]. by vm_compute in Hv.
Qed.

(** C2, amended: after a successful load the names of the package namespace
    are the three exported names together with [__doc__] and [__all__], the
    name [_middleware] or [_exceptions] of each submodule the load brought
    in, and the names of the attributes the module had when its body
    started. *)
Theorem namespace_names finder attrs st st' :
  sys_modules st !! package = None →
  import_package finder attrs st = (inr (), st') →
  ∃ ns,
    sys_modules st' !! package = Some ns ∧
    dom ns = dom attrs ∪ list_to_set (body_names ++ submodule_names (sys_modules st)) ∧
    list_to_set __all__ ⊆ dom ns.
Proof.
  intros Hst Hrun.
  destruct (import_success_namespace _ _ _ _ Hst Hrun) as (j & g & h & Hns).
  exists (loaded_namespace (sys_modules st) attrs j g h). split_and!.
  - done.
  - apply loaded_namespace_dom.
  - intros n Hn. apply elem_of_dom, loaded_namespace_exports.
    by apply elem_of_list_to_set in Hn.
Qed.

Lemma namespace_names_witness :
  sys_modules st0 !! package = None ∧
  import_package finder_ok fresh_attrs st0 = (inr (), st1) ∧
  ∃ ns,
    sys_modules st1 !! package = Some ns ∧
    dom ns = dom fresh_attrs ∪
             list_to_set (body_names ++ ["_middleware"; "_exceptions"]) ∧
    list_to_set __all__ ⊆ dom ns.
Proof.
  assert (H0 : sys_modules st0 !! package = None) by reflexivity.
  assert (H1 : import_package finder_ok fresh_attrs st0 = (inr (), st1))
    by (vm_compute; reflexivity).
  exact (conj H0 (conj H1 (namespace_names finder_ok fresh_attrs st0 st1 H0 H1))).
Defined.

(** ** What a successful load leaves *)

Lemma fetch_frame m m' modname name :
  m' !! modname = m !! modname →
  m' !! qualified modname name = m !! qualified modname name →
  fetch m' modname name = fetch m modname name.
Proof. unfold fetch. by intros -> ->. Qed.

Lemma fetch_attribute m modname name nsx v :
  m !! modname = Some nsx → nsx !! name = Some v → fetch m modname name = Some v.
Proof. unfold fetch. intros -> Hv; simpl. by rewrite Hv. Qed.

(** A load that succeeds leaves the package and the two submodules in the
    module table, and each exported name bound to what [IMPORT_FROM] gets
    from its submodule in the table it leaves. *)
Lemma import_success_final finder attrs st st' :
  sys_modules st !! package = None →
  import_package finder attrs st = (inr (), st') →
  ∃ ns nsm nse,
    sys_modules st' !! package = Some ns ∧
    sys_modules st' !! middleware = Some nsm ∧
    sys_modules st' !! exceptions = Some nse ∧
    ns !! "JhalogMiddleware" = fetch (sys_modules st') middleware "JhalogMiddleware" ∧
    ns !! "get_logger" = fetch (sys_modules st') middleware "get_logger" ∧
    ns !! "HTTPException" = fetch (sys_modules st') exceptions "HTTPException" ∧
    (∀ n, n ∈ __all__ → is_Some (ns !! n)) ∧
    (∃ nsx, resolve finder (sys_modules st) middleware = Defines nsx) ∧
    (∃ nsx, resolve finder (sys_modules st) exceptions = Defines nsx) ∧
    imports st' = imports st ++ [middleware; exceptions] ∧
    ∃ j g h, ns = loaded_namespace (sys_modules st) attrs j g h.
Proof.
  intros Hp Hrun.
  destruct (import_success _ _ _ _ Hp Hrun)
    as (m1 & m2 & j & g & h & Hm & Hj & Hg & He & Hh & ->).
  destruct (loaded_namespace_lookup (sys_modules st) attrs j g h) as (Lj & Lg & Lh & _).
  pose proof (import_table_success finder middleware ["JhalogMiddleware"; "get_logger"]
                (sys_modules st)) as Sm.
  pose proof (import_table_success finder exceptions ["HTTPException"] m1) as Se.
  pose proof (import_table_frame finder exceptions ["HTTPException"] m1) as Fe.
  pose proof (import_table_frame finder middleware ["JhalogMiddleware"; "get_logger"]
                (sys_modules st) exceptions) as Fm.
  rewrite Hm in Sm, Fm. rewrite He in Se, Fe. simpl in Sm, Se, Fe, Fm.
  destruct Sm as [Rm [nsm Hnsm]]; [eauto|]. destruct Se as [[nse' Re] [nse Hnse]]; [eauto|].
  assert (Hin : ∀ y, y ∈ ["HTTPException"] → ∀ name,
            name ∈ [middleware; qualified middleware "JhalogMiddleware";
                    qualified middleware "get_logger"] →
            name ≠ qualified exceptions y).
  { intros y. rewrite !elem_of_cons, elem_of_nil. intros [->|[]] name.
    rewrite !elem_of_cons, elem_of_nil. by intros [->|[->|[->|[]]]]. }
  assert (Hmid : m2 !! middleware = Some nsm).
  { rewrite Fe; [done|done|]. intros y Hy. apply (Hin y Hy). set_unfold; tauto. }
  assert (Fj : fetch m2 middleware "JhalogMiddleware" = Some j).
  { rewrite <- Hj. apply fetch_frame; (rewrite Fe; [done|done|]);
      intros y Hy; apply (Hin y Hy); set_unfold; tauto. }
  assert (Fg : fetch m2 middleware "get_logger" = Some g).
  { rewrite <- Hg. apply fetch_frame; (rewrite Fe; [done|done|]);
      intros y Hy; apply (Hin y Hy); set_unfold; tauto. }
  assert (Hfinal : ∀ modname name, modname ≠ package → qualified modname name ≠ package →
            fetch (sys_modules (running (loaded_namespace (sys_modules st) attrs j g h) m2
                     (imports st ++ [middleware; exceptions]))) modname name =
            fetch m2 modname name).
  { intros modname name H1 H2. apply fetch_frame; by apply running_other. }
  exists (loaded_namespace (sys_modules st) attrs j g h), nsm, nse.
  rewrite !Hfinal by done. split_and!; try done.
  - exact (running_package _ _ _).
  - rewrite <- Hmid. by apply (running_other _ m2).
  - rewrite <- Hnse. by apply (running_other _ m2).
  - congruence.
  - congruence.
  - congruence.
  - apply loaded_namespace_exports.
  - exists nse'. rewrite <- Re. unfold resolve. rewrite Fm; [done|done|].
    intros y. rewrite !elem_of_cons, elem_of_nil. by intros [->|[->|[]]].
  - eauto.
Qed.

(** ** How a load fails *)





(** ** What the load asks the finder *)

Lemma resolve_ext finder finder' m name :
  finder' name = finder name → resolve finder' m name = resolve finder m name.
Proof. unfold resolve. by intros ->. Qed.

Lemma child_step_ext finder finder' modname x m :
  finder' (qualified modname x) = finder (qualified modname x) →
  child_step finder' modname x m = child_step finder modname x m.
Proof. unfold child_step. by intros ->. Qed.

Lemma children_ext finder finder' modname names :
  (∀ x, x ∈ names → finder' (qualified modname x) = finder (qualified modname x)) →
  ∀ m, children finder' modname names m = children finder modname names m.
Proof.
  induction names as [|x names IH]; intros H m; simpl; [done|].
  rewrite (child_step_ext finder finder') by (apply H; left).
  destruct (child_step finder modname x m) as [[e|u] m']; [done|].
  apply IH. intros y Hy. apply H. by right.
Qed.

Lemma import_table_ext finder finder' modname names m :
  finder' modname = finder modname →
  (∀ x, x ∈ names → finder' (qualified modname x) = finder (qualified modname x)) →
  import_table finder' modname names m = import_table finder modname names m.
Proof.
  intros Hm Hnames. unfold import_table. rewrite (resolve_ext finder finder') by done.
  destruct (resolve finder m modname) as [|e|nsx]; [done..|].
  destruct (nsx !! "__path__"); [|done]. by apply children_ext.
Qed.

Lemma after_import_ext finder finder' m modname child ns :
  finder' modname = finder modname →
  after_import finder' m modname child ns = after_import finder m modname child ns.
Proof. intros Hm. unfold after_import. by rewrite (resolve_ext finder finder'). Qed.


Lemma from_import_exceptions_ext finder finder' ns m l :
  agree_on [exceptions; qualified exceptions "HTTPException"] finder finder' →
  from_import finder' exceptions ["HTTPException"] (running ns m l) =
  from_import finder exceptions ["HTTPException"] (running ns m l).
Proof.
  intros Ha.
  erewrite !(from_import_run _ _ _ _ exceptions);
    [|apply rpartition_exceptions|done|apply exceptions_names
     |apply rpartition_exceptions|done|apply exceptions_names].
  rewrite (import_table_ext finder finder'), (after_import_ext finder finder'); [done|..].
  - apply Ha. set_unfold; tauto.
  - apply Ha. set_unfold; tauto.
  - intros x. rewrite !elem_of_cons, elem_of_nil.
    intros [->|[]]; apply Ha; set_unfold; tauto.
Qed.

Lemma init_ext finder finder' ns0 m l :
  agree_on consulted finder finder' →
  __init__ finder' (running ns0 m l) = __init__ finder (running ns0 m l).
Proof.
  intros Ha. rewrite !init_cases. cbv zeta.
  assert (Hmid : agree_on [middleware; qualified middleware "JhalogMiddleware";
                           qualified middleware "get_logger"] finder finder').
  { intros name Hn. apply Ha. unfold consulted. set_unfold; tauto. }
  assert (Hexc : agree_on [exceptions; qualified exceptions "HTTPException"] finder finder').
  { intros name Hn. apply Ha. unfold consulted. set_unfold; tauto. }
  rewrite (import_table_ext finder finder' middleware),
    (after_import_ext finder finder' _ middleware).
  2: { apply Hmid. set_unfold; tauto. }
  2: { apply Hmid. set_unfold; tauto. }
  2: { intros x. rewrite !elem_of_cons, elem_of_nil.
       intros [->|[->|[]]]; apply Hmid; set_unfold; tauto. }
  destruct (import_table finder middleware _ m) as [[e|u] m1]; [done|].
  destruct (fetch m1 middleware "JhalogMiddleware"); [|done].
  destruct (fetch m1 middleware "get_logger"); [|done].
  rewrite (import_table_ext finder finder' exceptions),
    (after_import_ext finder finder' _ exceptions).
  2: { apply Hexc. set_unfold; tauto. }
  2: { apply Hexc. set_unfold; tauto. }
  2: { intros x. rewrite !elem_of_cons, elem_of_nil.
       intros [->|[]]; apply Hexc; set_unfold; tauto. }
  done.
Qed.

Lemma import_package_ext finder finder' attrs st :
  agree_on consulted finder finder' →
  import_package finder' attrs st = import_package finder attrs st.
Proof.
  intros Ha. destruct (sys_modules st !! package) as [ns|] eqn:Hp.
  - by rewrite !import_package_cached by (rewrite Hp; eauto).
  - rewrite !import_package_run by done. by rewrite (init_ext finder finder').
Qed.

(** The import statements a load executes: the one from [_middleware] and,
    unless that one fails, the one from [_exceptions]. *)
Lemma import_package_trace finder attrs st :
  sys_modules st !! package = None →
  imports (import_package finder attrs st).2 = imports st ++ [middleware] ∨
  imports (import_package finder attrs st).2 = imports st ++ [middleware; exceptions].
Proof.
  intros Hp. rewrite import_package_run, init_cases by done. cbv zeta.
  destruct (import_table finder middleware _ (sys_modules st)) as [[e1|u] m1]; [by left|].
  destruct (fetch m1 middleware "JhalogMiddleware"); [|by left].
  destruct (fetch m1 middleware "get_logger"); [|by left].
  destruct (import_table finder exceptions _ m1) as [[e2|u'] m2]; [by right|].
  destruct (fetch m2 exceptions "HTTPException"); by right.
Qed.

Lemma import_package_needs_middleware finder attrs st :
  sys_modules st !! package = None →
  resolve finder (sys_modules st) middleware = Absent →
  (import_package finder attrs st).1 = inl (ModuleNotFoundError middleware).
Proof.
  intros Hp Hr. rewrite import_package_run, init_cases by done. cbv zeta.
  unfold import_table. by rewrite Hr.
Qed.

(** ** The re-exported objects *)




(** C5: each exported name is imported from its declared origin.  A
    successful load has executed the import from [_middleware] and then the
    import from [_exceptions]; it binds [JhalogMiddleware] and [get_logger]
    to what [_middleware] binds under these names and [HTTPException] to
    what [_exceptions] binds under this name; for a submodule without a
    module-level [__getattr__], each name is bound to what the lookup of the
    name in that submodule gives: its attribute or, when it has none, the
    module registered as its submodule of that name. *)
Theorem reexports_origin finder attrs st st' :
  sys_modules st !! package = None →
  import_package finder attrs st = (inr (), st') →
  ∃ ns nsm nse,
    sys_modules st' !! package = Some ns ∧
    sys_modules st' !! middleware = Some nsm ∧
    sys_modules st' !! exceptions = Some nse ∧
    imports st' = imports st ++ [middleware; exceptions] ∧
    (∀ v, nsm !! "JhalogMiddleware" = Some v → ns !! "JhalogMiddleware" = Some v) ∧
    (∀ v, nsm !! "get_logger" = Some v → ns !! "get_logger" = Some v) ∧
    (∀ v, nse !! "HTTPException" = Some v → ns !! "HTTPException" = Some v) ∧
    (plain middleware nsm →
       ns !! "JhalogMiddleware" = fetch (sys_modules st') middleware "JhalogMiddleware" ∧
       ns !! "get_logger" = fetch (sys_modules st') middleware "get_logger") ∧
    (plain exceptions nse →
       ns !! "HTTPException" = fetch (sys_modules st') exceptions "HTTPException").
Proof.
  intros Hp Hrun.
  destruct (import_success_final _ _ _ _ Hp Hrun)
    as (ns & nsm & nse & Hns & Hnsm & Hnse & Hj & Hg & Hh & _ & _ & _ & Hl & _).
  exists ns, nsm, nse. split_and!; try done.
  - intros v Hv. rewrite Hj. by eapply fetch_attribute.
  - intros v Hv. rewrite Hg. by eapply fetch_attribute.
  - intros v Hv. rewrite Hh. by eapply fetch_attribute.
Qed.

Lemma reexports_origin_witness :
  sys_modules st0 !! package = None ∧
  import_package finder_ok fresh_attrs st0 = (inr (), st1) ∧
  ∃ ns nsm nse,
    sys_modules st1 !! package = Some ns ∧
    sys_modules st1 !! middleware = Some nsm ∧
    sys_modules st1 !! exceptions = Some nse ∧
    imports st1 = imports st0 ++ [middleware; exceptions] ∧
    (∀ v, nsm !! "JhalogMiddleware" = Some v → ns !! "JhalogMiddleware" = Some v) ∧
    (∀ v, nsm !! "get_logger" = Some v → ns !! "get_logger" = Some v) ∧
    (∀ v, nse !! "HTTPException" = Some v → ns !! "HTTPException" = Some v) ∧
    (plain middleware nsm →
       ns !! "JhalogMiddleware" = fetch (sys_modules st1) middleware "JhalogMiddleware" ∧
       ns !! "get_logger" = fetch (sys_modules st1) middleware "get_logger") ∧
    (plain exceptions nse →
       ns !! "HTTPException" = fetch (sys_modules st1) exceptions "HTTPException").
Proof.
  assert (H0 : sys_modules st0 !! package = None) by reflexivity.
  assert (H1 : import_package finder_ok fresh_attrs st0 = (inr (), st1))
    by (vm_compute; reflexivity).
  exact (conj H0 (conj H1 (reexports_origin finder_ok fresh_attrs st0 st1 H0 H1))).
Defined.

(** ** Failing loads *)




(** ** The order of the two imports *)

Example load_fallback :
  sys_modules (import_package finder_no_get_logger fresh_attrs st_fallback).2
    !! package ≫= (.!! "get_logger") =
    Some (VModule (qualified middleware "get_logger")).
Proof. vm_compute. reflexivity. Qed.

Example load_submodule_of_package :
  (import_package finder_package fresh_attrs st0).1 = inr () ∧
  sys_modules (import_package finder_package fresh_attrs st0).2
    !! middleware ≫= (.!! "get_logger") =
    Some (VModule (qualified middleware "get_logger")).
Proof. split; vm_compute; reflexivity. Qed.

Example load_package_without_submodule :
  (import_package finder_package_bare fresh_attrs st0).1 =
    inl (ImportError "get_logger" middleware).
Proof. vm_compute. reflexivity. Qed.




(** ** What the load depends on and what it changes *)

(** C6, as stated, fails: when [_middleware] is a package that has no
    attribute [get_logger], the load imports a third module, the submodule
    [starlette_jhalog._middleware.get_logger]: two finders that agree on
    [_middleware] and [_exceptions] and differ on that module give different
    loads. *)
Lemma load_asks_for_third_module :
  ¬ (∀ finder',
       sys_modules st0 !! package = None →
       finder' middleware = finder_package middleware →
       finder' exceptions = finder_package exceptions →
       import_package finder' fresh_attrs st0 =
       import_package finder_package fresh_attrs st0).
Proof.
  intros Hclaim.
  specialize (Hclaim finder_package_bare eq_refl eq_refl eq_refl).
  apply (f_equal fst) in Hclaim. vm_compute in Hclaim. discriminate.
Qed.

(** C6, amended: the body executes an import from [_middleware] and, unless
    that one fails, an import from [_exceptions], in this order, and no
    other import statement.  A successful load has executed both, the import
    system got both submodules, and both are in the module table after it;
    a load for which the import system gets no [_middleware], or no
    [_exceptions], fails.  With [plain] submodules, the only modules the load
    asks the finder for are the two submodules and, for each imported name,
    the submodule of that name of the module it is imported from: the load
    is the same under every finder that agrees on these. *)
Theorem imports_two_submodules finder attrs st :
  sys_modules st !! package = None →
  plain_submodules finder (sys_modules st) →
  (imports (import_package finder attrs st).2 = imports st ++ [middleware] ∨
   imports (import_package finder attrs st).2 = imports st ++ [middleware; exceptions]) ∧
  (∀ st', import_package finder attrs st = (inr (), st') →
     imports st' = imports st ++ [middleware; exceptions] ∧
     (∃ nsm, resolve finder (sys_modules st) middleware = Defines nsm) ∧
     (∃ nse, resolve finder (sys_modules st) exceptions = Defines nse) ∧
     is_Some (sys_modules st' !! middleware) ∧
     is_Some (sys_modules st' !! exceptions)) ∧
  (resolve finder (sys_modules st) middleware = Absent →
     (import_package finder attrs st).1 = inl (ModuleNotFoundError middleware)) ∧
  (resolve finder (sys_modules st) exceptions = Absent →
     ∃ e, (import_package finder attrs st).1 = inl e) ∧
  (∀ finder', agree_on consulted finder finder' →
     import_package finder' attrs st = import_package finder attrs st).
Proof.
  intros Hp _. split_and!.
  - by apply import_package_trace.
  - intros st' Hrun.
    destruct (import_success_final _ _ _ _ Hp Hrun)
      as (ns & nsm & nse & _ & Hnsm & Hnse & _ & _ & _ & _ & Rm & Re & Hl & _).
    split_and!; eauto.
  - by apply import_package_needs_middleware.
  - intros Hr.
    destruct (import_package finder attrs st) as [[e|[]] st'] eqn:Hrun; [by exists e|].
    destruct (import_success_final _ _ _ _ Hp Hrun)
      as (_ & _ & _ & _ & _ & _ & _ & _ & _ & _ & _ & [nse Re] & _).
    congruence.
  - intros finder' Ha. by apply import_package_ext.
Qed.

Lemma imports_two_submodules_witness :
  sys_modules st0 !! package = None ∧
  plain_submodules finder_ok (sys_modules st0) ∧
  import_package finder_ok fresh_attrs st0 = (inr (), st1) ∧
  imports st1 = imports st0 ++ [middleware; exceptions] ∧
  (∃ nsm, resolve finder_ok (sys_modules st0) middleware = Defines nsm) ∧
  (∃ nse, resolve finder_ok (sys_modules st0) exceptions = Defines nse) ∧
  is_Some (sys_modules st1 !! middleware) ∧
  is_Some (sys_modules st1 !! exceptions).
Proof.
  assert (H0 : sys_modules st0 !! package = None) by reflexivity.
  assert (H1 : plain_submodules finder_ok (sys_modules st0)).
  { intros modname nsx. rewrite !elem_of_cons, elem_of_nil.
    intros [->|[->|[]]] Hr; vm_compute in Hr; injection Hr as <-;
      (split; [reflexivity|left; reflexivity]). }
  assert (H2 : import_package finder_ok fresh_attrs st0 = (inr (), st1))
    by (vm_compute; reflexivity).
  exact (conj H0 (conj H1 (conj H2
    (proj1 (proj2 (imports_two_submodules finder_ok fresh_attrs st0 H0 H1)) st1 H2)))).
Defined.

(** C7, as stated, fails: a successful load changes the module table outside
    the package namespace, where the two submodules get registered, and it
    binds in the package namespace names that are not imported names,
    [__all__] among them. *)
Lemma load_changes_more_than_exports :
  ¬ (∀ st',
       sys_modules st0 !! package = None →
       import_package finder_ok fresh_attrs st0 = (inr (), st') →
       (∀ name, name ≠ package → sys_modules st' !! name = sys_modules st0 !! name) ∧
       (∀ ns n, sys_modules st' !! package = Some ns → n ∉ __all__ →
                ns !! n = fresh_attrs !! n)).
Proof.
  intros Hclaim.
  assert (H0 : sys_modules st0 !! package = None) by reflexivity.
  assert (H1 : import_package finder_ok fresh_attrs st0 = (inr (), st1))
    by (vm_compute; reflexivity).
  destruct (Hclaim st1 H0 H1) as [Hframe _].
  assert (Hne : middleware ≠ package) by discriminate.
  specialize (Hframe middleware Hne). by vm_compute in Hframe.
Qed.

(** C7, amended: the body runs once, when the package is loaded: importing
    the loaded package again leaves the state as it is.  A successful load
    leaves the package and its two submodules in the module table and binds,
    in the package namespace, [__doc__] to the docstring, [JhalogMiddleware],
    [get_logger], [HTTPException], [__all__] to the tuple of the three
    names, and [_middleware] and [_exceptions] for the submodules it brought
    in; every other name of the package namespace is as it was when the
    body started. *)
Theorem load_effects finder attrs st st' :
  sys_modules st !! package = None →
  import_package finder attrs st = (inr (), st') →
  import_package finder attrs st' = (inr (), st') ∧
  ∃ ns,
    sys_modules st' !! package = Some ns ∧
    is_Some (sys_modules st' !! middleware) ∧
    is_Some (sys_modules st' !! exceptions) ∧
    (∀ n, n ∈ body_names → is_Some (ns !! n)) ∧
    ns !! "__doc__" = Some (VStr docstring) ∧
    ns !! "__all__" = Some (VTuple (VStr <$> __all__)) ∧
    (sys_modules st !! middleware = None →
       ns !! "_middleware" = Some (VModule middleware)) ∧
    (sys_modules st !! exceptions = None →
       ns !! "_exceptions" = Some (VModule exceptions)) ∧
    (∀ n, n ∉ body_names ++ submodule_names (sys_modules st) → ns !! n = attrs !! n).
Proof.
  intros Hp Hrun.
  destruct (import_success_final _ _ _ _ Hp Hrun)
    as (ns & nsm & nse & Hns & Hnsm & Hnse & _ & _ & _ & _ & _ & _ & _ & j & g & h & ->).
  split.
  { apply import_package_cached. rewrite Hns. eauto. }
  exists (loaded_namespace (sys_modules st) attrs j g h).
  destruct (loaded_namespace_lookup (sys_modules st) attrs j g h) as (? & ? & ? & ? & ?).
  split_and!; eauto.
  - intros n. unfold body_names. rewrite !elem_of_cons, elem_of_nil.
    intros [->|[->|[->|[->|[->|[]]]]]]; eauto.
  - apply loaded_namespace_middleware.
  - apply loaded_namespace_exceptions.
  - apply loaded_namespace_frame.
Qed.

Lemma load_effects_witness :
  sys_modules st0 !! package = None ∧
  import_package finder_ok fresh_attrs st0 = (inr (), st1) ∧
  import_package finder_ok fresh_attrs st1 = (inr (), st1) ∧
  ∃ ns,
    sys_modules st1 !! package = Some ns ∧
    is_Some (sys_modules st1 !! middleware) ∧
    is_Some (sys_modules st1 !! exceptions) ∧
    (∀ n, n ∈ body_names → is_Some (ns !! n)) ∧
    ns !! "__doc__" = Some (VStr docstring) ∧
    ns !! "__all__" = Some (VTuple (VStr <$> __all__)) ∧
    (sys_modules st0 !! middleware = None →
       ns !! "_middleware" = Some (VModule middleware)) ∧
    (sys_modules st0 !! exceptions = None →
       ns !! "_exceptions" = Some (VModule exceptions)) ∧
    (∀ n, n ∉ body_names ++ submodule_names (sys_modules st0) → ns !! n = fresh_attrs !! n).
Proof.
  assert (H0 : sys_modules st0 !! package = None) by reflexivity.
  assert (H1 : import_package finder_ok fresh_attrs st0 = (inr (), st1))
    by (vm_compute; reflexivity).
  exact (conj H0 (conj H1 (load_effects finder_ok fresh_attrs st0 st1 H0 H1))).
Defined.

(** * Further properties of the load *)

(** After a successful load the [__all__] attribute of the package is the
    tuple of the three names in the order of the source and [__doc__] is the
    docstring of the module, whatever the module had under these names when
    its body started. *)
Theorem loaded_all_and_doc finder attrs st st' :
  sys_modules st !! package = None →
  import_package finder attrs st = (inr (), st') →
  ∃ ns,
    sys_modules st' !! package = Some ns ∧
    ns !! "__all__" =
      Some (VTuple [VStr "JhalogMiddleware"; VStr "HTTPException"; VStr "get_logger"]) ∧
    ns !! "__doc__" =
      Some (VStr "Jhalog (JSON HTTP Access Log) middleware for Starlette/FastAPI.").
Proof.
  intros Hst Hrun.
  destruct (import_success_namespace _ _ _ _ Hst Hrun) as (j & g & h & Hns).
  destruct (loaded_namespace_lookup (sys_modules st) attrs j g h) as (_ & _ & _ & Ld & La).
  eexists. split; [exact Hns|]. by split.
Qed.

Lemma loaded_all_and_doc_witness :
  sys_modules st0 !! package = None ∧
  import_package finder_ok fresh_attrs st0 = (inr (), st1) ∧
  fresh_attrs !! "__doc__" = Some VNone ∧
  ∃ ns,
    sys_modules st1 !! package = Some ns ∧
    ns !! "__all__" =
      Some (VTuple [VStr "JhalogMiddleware"; VStr "HTTPException"; VStr "get_logger"]) ∧
    ns !! "__doc__" =
      Some (VStr "Jhalog (JSON HTTP Access Log) middleware for Starlette/FastAPI.").
Proof.
  assert (H0 : sys_modules st0 !! package = None) by reflexivity.
  assert (H1 : import_package finder_ok fresh_attrs st0 = (inr (), st1))
    by (vm_compute; reflexivity).
  assert (H2 : fresh_attrs !! "__doc__" = Some VNone) by reflexivity.
  exact (conj H0 (conj H1 (conj H2
    (loaded_all_and_doc finder_ok fresh_attrs st0 st1 H0 H1)))).
Defined.

(** ** Names imported as submodules *)

Lemma child_step_keeps finder modname y m name ns :
  name ≠ modname → m !! name = Some ns →
  (child_step finder modname y m).2 !! name = Some ns.
Proof.
  intros Hne Hm. unfold child_step.
  destruct (m !! modname ≫= (.!! y)); [done|].
  destruct (m !! qualified modname y) eqn:Hq; [done|].
  destruct (finder (qualified modname y)); [done..|]. simpl.
  rewrite lookup_alter_ne by done. rewrite lookup_insert_ne; [done|].
  intros <-. congruence.
Qed.

Lemma child_step_keeps_attr finder modname y m x v :
  m !! modname ≫= (.!! x) = Some v →
  (child_step finder modname y m).2 !! modname ≫= (.!! x) = Some v.
Proof.
  intros Hm. unfold child_step.
  destruct (m !! modname ≫= (.!! y)) eqn:Hy; [done|].
  destruct (m !! qualified modname y); [done|].
  destruct (finder (qualified modname y)); [done..|]. simpl.
  rewrite lookup_alter_eq.
  rewrite lookup_insert_ne by (intros Heq; by destruct (qualified_ne modname y)).
  destruct (m !! modname) as [nsx|]; [|done]. simpl in *.
  rewrite lookup_insert_ne; [done|]. intros <-. congruence.
Qed.

Lemma children_keeps finder modname names name ns :
  name ≠ modname → ∀ m, m !! name = Some ns →
  (children finder modname names m).2 !! name = Some ns.
Proof.
  intros Hne. induction names as [|y names IH]; intros m Hm; simpl; [done|].
  pose proof (child_step_keeps finder modname y m name ns Hne Hm) as Hk.
  destruct (child_step finder modname y m) as [[e|u] m']; [done|]. by apply IH.
Qed.

Lemma children_keeps_attr finder modname names x v :
  ∀ m, m !! modname ≫= (.!! x) = Some v →
  (children finder modname names m).2 !! modname ≫= (.!! x) = Some v.
Proof.
  induction names as [|y names IH]; intros m Hm; simpl; [done|].
  pose proof (child_step_keeps_attr finder modname y m x v Hm) as Hk.
  destruct (child_step finder modname y m) as [[e|u] m']; [done|]. by apply IH.
Qed.

Lemma child_step_other finder modname x y m :
  x ≠ y → m !! modname ≫= (.!! x) = None → m !! qualified modname x = None →
  (child_step finder modname y m).2 !! modname ≫= (.!! x) = None ∧
  (child_step finder modname y m).2 !! qualified modname x = None.
Proof.
  intros Hxy Ha Hq. unfold child_step.
  destruct (m !! modname ≫= (.!! y)) eqn:Hy; [done|].
  destruct (m !! qualified modname y) eqn:Hqy; [done|].
  destruct (finder (qualified modname y)) as [|e|nsc] eqn:Hfy; [done..|]. simpl.
  assert (Hne : qualified modname y ≠ qualified modname x)
    by (intros Heq; by apply qualified_inj in Heq).
  pose proof (qualified_ne modname x). pose proof (qualified_ne modname y).
  split.
  - rewrite lookup_alter_eq, lookup_insert_ne by done.
    destruct (m !! modname) as [nsx|]; [|done]. simpl in *.
    by rewrite lookup_insert_ne.
  - by rewrite lookup_alter_ne, lookup_insert_ne.
Qed.

(** A name of the from-list that the package [modname] lacks and the finder
    has as a submodule: when the imports of the from-list go through, the
    submodule is registered and bound on [modname]. *)
Lemma children_loads finder modname names x nsc :
  x ∈ names → finder (qualified modname x) = Defines nsc →
  ∀ m, is_Some (m !! modname) → m !! modname ≫= (.!! x) = None →
       m !! qualified modname x = None →
       (∃ u, (children finder modname names m).1 = inr u) →
       (children finder modname names m).2 !! qualified modname x = Some nsc ∧
       (children finder modname names m).2 !! modname ≫= (.!! x) =
         Some (VModule (qualified modname x)).
Proof.
  intros Hx Hf. induction names as [|y names IH]; [by apply elem_of_nil in Hx|].
  intros m [nsx Hm] Ha Hq Hok. simpl in *.
  destruct (decide (y = x)) as [->|Hne].
  - assert (Hs : child_step finder modname x m =
              (inr (), alter <[x := VModule (qualified modname x)]> modname
                         (<[qualified modname x := nsc]> m))).
    { unfold child_step. by rewrite Ha, Hq, Hf. }
    rewrite Hs in *. split.
    + apply children_keeps; [apply qualified_ne|].
      rewrite lookup_alter_ne by (intros Heq; by destruct (qualified_ne modname x)).
      apply lookup_insert_eq.
    + apply children_keeps_attr. rewrite lookup_alter_eq.
      rewrite lookup_insert_ne by (intros Heq; by destruct (qualified_ne modname x)).
      rewrite Hm. simpl. by rewrite lookup_insert_eq.
  - apply elem_of_cons in Hx as [->|Hx]; [done|].
    assert (Hxy : x ≠ y) by congruence.
    destruct (child_step_other finder modname x y m Hxy Ha Hq) as [Ha' Hq'].
    pose proof (child_step_registered finder modname y m) as Hr.
    destruct (child_step finder modname y m) as [[e|u] m'] eqn:Hs.
    { by destruct Hok as [? ?]. }
    simpl in *. apply IH; try done. apply Hr. eauto.
Qed.

Lemma import_table_loads finder modname names m x nsx nsc :
  x ∈ names →
  resolve finder m modname = Defines nsx →
  is_Some (nsx !! "__path__") → nsx !! x = None →
  m !! qualified modname x = None →
  finder (qualified modname x) = Defines nsc →
  (∃ u, (import_table finder modname names m).1 = inr u) →
  (import_table finder modname names m).2 !! qualified modname x = Some nsc ∧
  (import_table finder modname names m).2 !! modname ≫= (.!! x) =
    Some (VModule (qualified modname x)).
Proof.
  intros Hx Hr [p Hp] Ha Hq Hf. unfold import_table. rewrite Hr, Hp.
  intros Hok.
  destruct (children_loads finder modname names x nsc Hx Hf (<[modname := nsx]> m))
    as [H1 H2]; try done.
  - rewrite lookup_insert_eq. eauto.
  - by rewrite lookup_insert_eq.
  - rewrite lookup_insert_ne; [done|]. intros Heq. by destruct (qualified_ne modname x).
Qed.

Lemma reexports_cases (P : string → string → Prop) :
  P middleware "JhalogMiddleware" → P middleware "get_logger" →
  P exceptions "HTTPException" →
  ∀ sub n, (sub, n) ∈ reexports → P sub n.
Proof.
  intros H1 H2 H3 sub n. unfold reexports. rewrite !elem_of_cons, elem_of_nil.
  intros [[= -> ->]|[[= -> ->]|[[= -> ->]|[]]]]; done.
Qed.

(** An imported name that its submodule does not bind: a successful load
    has bound it in the package to the module registered as the submodule
    of that name. *)
Theorem missing_name_bound_to_submodule finder attrs st st' sub n nsub :
  sys_modules st !! package = None →
  import_package finder attrs st = (inr (), st') →
  (sub, n) ∈ reexports →
  sys_modules st' !! sub = Some nsub →
  plain sub nsub →
  nsub !! n = None →
  is_Some (sys_modules st' !! qualified sub n) ∧
  sys_modules st' !! package ≫= (.!! n) = Some (VModule (qualified sub n)).
Proof.
  intros Hp Hrun Hin Hsub _ Hn.
  destruct (import_success_final _ _ _ _ Hp Hrun)
    as (ns & nsm & nse & Hns & Hnsm & Hnse & Hj & Hg & Hh & Hall & _).
  assert (Hf : ns !! n = fetch (sys_modules st') sub n ∧ is_Some (ns !! n)).
  { revert sub n Hin nsub Hsub Hn.
    apply (reexports_cases (λ sub n, ∀ nsub, sys_modules st' !! sub = Some nsub →
             nsub !! n = None →
             ns !! n = fetch (sys_modules st') sub n ∧ is_Some (ns !! n)));
      intros nsub _ _; (split; [done|]); apply Hall; unfold __all__; set_unfold; tauto. }
  destruct Hf as [Hf [v Hv]]. rewrite Hns. simpl. rewrite Hf in Hv |- *.
  revert Hv. unfold fetch. rewrite Hsub. simpl. rewrite Hn.
  destruct (sys_modules st' !! qualified sub n); [eauto|done].
Qed.

Lemma missing_name_bound_to_submodule_witness :
  sys_modules st_fallback !! package = None ∧
  is_Some (sys_modules (import_package finder_no_get_logger fresh_attrs st_fallback).2
             !! qualified middleware "get_logger") ∧
  sys_modules (import_package finder_no_get_logger fresh_attrs st_fallback).2
    !! package ≫= (.!! "get_logger") =
    Some (VModule (qualified middleware "get_logger")).
Proof.
  assert (H0 : sys_modules st_fallback !! package = None) by reflexivity.
  assert (H1 : import_package finder_no_get_logger fresh_attrs st_fallback =
               (inr (), (import_package finder_no_get_logger fresh_attrs st_fallback).2))
    by (vm_compute; reflexivity).
  assert (H2 : (middleware, "get_logger") ∈ reexports)
    by (unfold reexports; set_unfold; tauto).
  assert (H3 : sys_modules (import_package finder_no_get_logger fresh_attrs st_fallback).2
                 !! middleware = Some (<["JhalogMiddleware" := VObj 1]> ∅))
    by (vm_compute; reflexivity).
  assert (H4 : plain middleware (<["JhalogMiddleware" := VObj 1]> ∅))
    by (split; [reflexivity|left; reflexivity]).
  assert (H5 : (<["JhalogMiddleware" := VObj 1]> ∅ : gmap string value) !! "get_logger" = None)
    by reflexivity.
  exact (conj H0 (missing_name_bound_to_submodule finder_no_get_logger fresh_attrs
                    st_fallback _ middleware "get_logger" _ H0 H1 H2 H3 H4 H5)).
Defined.

(** An imported name that its submodule, a package, lacks and that the
    finder has as a submodule of it: a successful load has loaded that
    submodule, bound it on the package it belongs to, and bound the
    imported name to it. *)
Theorem submodule_of_package_loaded finder attrs st st' sub n nsx nsc :
  sys_modules st !! package = None →
  import_package finder attrs st = (inr (), st') →
  (sub, n) ∈ reexports →
  resolve finder (sys_modules st) sub = Defines nsx →
  plain sub nsx →
  is_Some (nsx !! "__path__") →
  nsx !! n = None →
  sys_modules st !! qualified sub n = None →
  finder (qualified sub n) = Defines nsc →
  sys_modules st' !! qualified sub n = Some nsc ∧
  sys_modules st' !! sub ≫= (.!! n) = Some (VModule (qualified sub n)) ∧
  sys_modules st' !! package ≫= (.!! n) = Some (VModule (qualified sub n)).
Proof.
  intros Hp Hrun Hin Hr _ Hpath Hn Hq Hf.
  destruct (import_success _ _ _ _ Hp Hrun)
    as (m1 & m2 & j & g & h & Hm & Hj & Hg & He & Hh & ->).
  destruct (loaded_namespace_lookup (sys_modules st) attrs j g h) as (Lj & Lg & Lh & _).
  pose proof (import_table_frame finder middleware ["JhalogMiddleware"; "get_logger"]
                (sys_modules st)) as Fm.
  pose proof (import_table_frame finder exceptions ["HTTPException"] m1) as Fe.
  rewrite Hm in Fm. rewrite He in Fe. simpl in Fm, Fe.
  assert (Fm' : ∀ name, name ∈ [exceptions; qualified exceptions "HTTPException"] →
            m1 !! name = sys_modules st !! name).
  { intros name Hname. apply Fm.
    - revert Hname. rewrite !elem_of_cons, elem_of_nil. by intros [->|[->|[]]].
    - intros y. revert Hname. rewrite !elem_of_cons, elem_of_nil.
      by intros [->|[->|[]]] [->|[->|[]]]. }
  assert (Fe' : ∀ name, name ∈ [middleware; qualified middleware "JhalogMiddleware";
                                qualified middleware "get_logger"] →
            m2 !! name = m1 !! name).
  { intros name Hname. apply Fe.
    - revert Hname. rewrite !elem_of_cons, elem_of_nil. by intros [->|[->|[->|[]]]].
    - intros y. revert Hname. rewrite !elem_of_cons, elem_of_nil.
      by intros [->|[->|[->|[]]]] [->|[]]. }
  rewrite running_package. simpl.
  revert sub n Hin nsx Hr Hpath Hn Hq Hf.
  apply (reexports_cases (λ sub n, ∀ nsx,
    resolve finder (sys_modules st) sub = Defines nsx →
    is_Some (nsx !! "__path__") → nsx !! n = None →
    sys_modules st !! qualified sub n = None →
    finder (qualified sub n) = Defines nsc →
    sys_modules (running (loaded_namespace (sys_modules st) attrs j g h) m2
       (imports st ++ [middleware; exceptions])) !! qualified sub n = Some nsc ∧
    sys_modules (running (loaded_namespace (sys_modules st) attrs j g h) m2
       (imports st ++ [middleware; exceptions])) !! sub ≫= (.!! n) =
      Some (VModule (qualified sub n)) ∧
    loaded_namespace (sys_modules st) attrs j g h !! n = Some (VModule (qualified sub n))));
    intros nsx Hr Hpath Hn Hq Hf.
  - destruct (import_table_loads finder middleware ["JhalogMiddleware"; "get_logger"]
                (sys_modules st) "JhalogMiddleware" nsx nsc) as [H1 H2]; try done.
    { set_unfold; tauto. } { rewrite Hm. by exists (). }
    rewrite Hm in H1, H2. simpl in H1, H2.
    rewrite !running_other by done. rewrite !Fe' by (set_unfold; tauto).
    split_and!; [done..|]. rewrite Lj, <- Hj. unfold fetch. by rewrite H2.
  - destruct (import_table_loads finder middleware ["JhalogMiddleware"; "get_logger"]
                (sys_modules st) "get_logger" nsx nsc) as [H1 H2]; try done.
    { set_unfold; tauto. } { rewrite Hm. by exists (). }
    rewrite Hm in H1, H2. simpl in H1, H2.
    rewrite !running_other by done. rewrite !Fe' by (set_unfold; tauto).
    split_and!; [done..|]. rewrite Lg, <- Hg. unfold fetch. by rewrite H2.
  - destruct (import_table_loads finder exceptions ["HTTPException"]
                m1 "HTTPException" nsx nsc) as [H1 H2]; try done.
    { set_unfold; tauto. }
    { unfold resolve in *. by rewrite Fm' by (set_unfold; tauto). }
    { by rewrite Fm' by (set_unfold; tauto). }
    { rewrite He. by exists (). }
    rewrite He in H1, H2. simpl in H1, H2.
    rewrite !running_other by done.
    split_and!; [done..|]. rewrite Lh, <- Hh. unfold fetch. by rewrite H2.
Qed.

Lemma submodule_of_package_loaded_witness :
  sys_modules st0 !! package = None ∧
  sys_modules (import_package finder_package fresh_attrs st0).2
    !! qualified middleware "get_logger" = Some get_logger_ns ∧
  sys_modules (import_package finder_package fresh_attrs st0).2
    !! middleware ≫= (.!! "get_logger") =
    Some (VModule (qualified middleware "get_logger")) ∧
  sys_modules (import_package finder_package fresh_attrs st0).2
    !! package ≫= (.!! "get_logger") =
    Some (VModule (qualified middleware "get_logger")).
Proof.
  assert (H0 : sys_modules st0 !! package = None) by reflexivity.
  assert (H1 : import_package finder_package fresh_attrs st0 =
               (inr (), (import_package finder_package fresh_attrs st0).2))
    by (vm_compute; reflexivity).
  assert (H2 : (middleware, "get_logger") ∈ reexports)
    by (unfold reexports; set_unfold; tauto).
  assert (H3 : resolve finder_package (sys_modules st0) middleware = Defines package_ns)
    by reflexivity.
  assert (H4 : plain middleware package_ns)
    by (split; [reflexivity|left; reflexivity]).
  assert (H5 : is_Some (package_ns !! "__path__")) by (by eexists).
  assert (H6 : package_ns !! "get_logger" = None) by reflexivity.
  assert (H7 : sys_modules st0 !! qualified middleware "get_logger" = None) by reflexivity.
  assert (H8 : finder_package (qualified middleware "get_logger") = Defines get_logger_ns)
    by reflexivity.
  exact (conj H0 (submodule_of_package_loaded finder_package fresh_attrs st0 _
                    middleware "get_logger" package_ns get_logger_ns
                    H0 H1 H2 H3 H4 H5 H6 H7 H8)).
Defined.
